(** * Time filter: from a time range to a range filter

    A shallow embedding of
    [src/plugins/data/public/query/timefilter/get_time.ts]
    ([calculateBounds] and [getTime]) and the properties of it that the
    specification states. *)

From stdpp Require Import base option list strings pretty gmap.

(** * Data model *)

(** [TimeRange]: the two date expressions of a query window. *)
Record TimeRange := { from : string; to : string }.

(** [IFieldType], [IIndexPattern]: the parts of the index-pattern
    abstraction the module reads. [timeFieldName] is optional in the
    interface. *)
Record IFieldType := { name : string; type : string }.

Record IIndexPattern := {
  title : string;
  fields : list IFieldType;
  timeFieldName : option string;
}.

(** The options object handed to [dateMath.parse]; a key left out of the
    object literal is [None]. [parseForceNow] is its [forceNow] key. *)
Record ParseOptions (Date : Type) := {
  roundUp : option bool;
  parseForceNow : option Date;
}.
Arguments roundUp {Date} _.
Arguments parseForceNow {Date} _.

(** [interface CalculateBoundsOptions { forceNow?: Date }] *)
Record CalculateBoundsOptions (Date : Type) := { forceNow : option Date }.
Arguments forceNow {Date} _.

(** The second argument of [buildRangeFilter]: a plain object with string
    values. *)
Abbreviation RangeFilterParams := (gmap string string).

(** * What the module imports

    [dateMath.parse], the instants it produces with their [toISOString],
    and [buildRangeFilter] are not part of the file; the development is
    parametric in them, with the types their declarations give: a call
    returns a value of the declared type.
    [dateMath.parse] resolves the expression [now] against the wall clock
    unless [forceNow] is supplied, so the clock reading is an explicit
    argument. *)
Class Imports := {
  Moment : Type;
  Date : Type;
  Clock : Type;
  RangeFilter : Type;
  dateMath_parse : Clock → string → ParseOptions Date → option Moment;
  toISOString : Moment → string;
  buildRangeFilter : IFieldType → RangeFilterParams → IIndexPattern → RangeFilter;
}.

(** * JavaScript glue *)

(** [ToBoolean] on the values the module tests. The instances are below:
    the values are objects, and an object is truthy. *)
Class ToBoolean (A : Type) := toBoolean : A → bool.

(** [a && b] where [a] is an object or [undefined]: [a] itself when it is
    falsy, otherwise [b]. *)
Definition js_and {A B} `{ToBoolean A} (a : option A) (b : A → B) : option B :=
  match a with
  | Some x => if toBoolean x then Some (b x) else None
  | None => None
  end.

(** [...o] inside an object literal: the own keys of [o]; nothing for
    [undefined]. *)
Definition spread (o : option RangeFilterParams) : RangeFilterParams :=
  default ∅ o.

Section GetTime.
Context {deps : Imports}.

(** The pair [{ min, max }] returned by [calculateBounds]. *)
Record Bounds := { min : option Moment; max : option Moment }.

#[local] Instance Bounds_toBoolean : ToBoolean Bounds := λ _, true.
#[local] Instance Moment_toBoolean : ToBoolean Moment := λ _, true.

(** [calculateBounds(timeRange, options = {})] *)
Definition calculateBounds (clock : Clock) (timeRange : TimeRange)
    (options : option (CalculateBoundsOptions Date)) : Bounds :=
  let options := default {| forceNow := None |} options in
  {| min := dateMath_parse clock (from timeRange)
              {| roundUp := None; parseForceNow := forceNow options |};
     max := dateMath_parse clock (to timeRange)
              {| roundUp := Some true; parseForceNow := forceNow options |} |}.

(** The object literal of lines 59-63: later keys win over earlier ones. *)
Definition rangeParams (bounds : Bounds) : RangeFilterParams :=
  <["format" := "strict_date_optional_time"]>
    (spread (js_and (max bounds) (λ m, {["lte" := toISOString m]}))
     ∪ spread (js_and (min bounds) (λ m, {["gte" := toISOString m]}))).

(** The four [return] statements of [getTime]. *)
Inductive Return :=
| ReturnNoIndexPattern                (* line 42 *)
| ReturnNoTimefield                   (* line 50 *)
| ReturnNoBounds                      (* line 55 *)
| ReturnFilter (filter : RangeFilter) (* line 57 *).

(** The value a [return] hands to the caller: a bare [return] gives
    [undefined]. *)
Definition returned (r : Return) : option RangeFilter :=
  match r with
  | ReturnFilter filter => Some filter
  | _ => None
  end.

(** [field => field.name === indexPattern.timeFieldName] *)
Definition isTimeField (indexPattern : IIndexPattern) (field : IFieldType) : bool :=
  bool_decide (Some (name field) = timeFieldName indexPattern).

(** [getTime], keeping track of the [return] it leaves through. *)
Definition getTime_return (clock : Clock) (indexPattern : option IIndexPattern)
    (timeRange : TimeRange) (forceNow : option Date) : Return :=
  match indexPattern with
  | None => ReturnNoIndexPattern
  | Some indexPattern =>
    let timefield := find (isTimeField indexPattern) (fields indexPattern) in
    match timefield with
    | None => ReturnNoTimefield
    | Some timefield =>
      let bounds := calculateBounds clock timeRange (Some {| forceNow := forceNow |}) in
      if negb (toBoolean bounds) then ReturnNoBounds
      else ReturnFilter (buildRangeFilter timefield (rangeParams bounds) indexPattern)
    end
  end.

(** [getTime(indexPattern, timeRange, forceNow?)] *)
Definition getTime (clock : Clock) (indexPattern : option IIndexPattern)
    (timeRange : TimeRange) (forceNow : option Date) : option RangeFilter :=
  returned (getTime_return clock indexPattern timeRange forceNow).

End GetTime.

#[export] Existing Instance Bounds_toBoolean.
#[export] Existing Instance Moment_toBoolean.

(** * Vocabulary of the statements *)

(** The index pattern contains its time field. *)
Definition hasTimeField (indexPattern : IIndexPattern) : Prop :=
  ∃ field, field ∈ fields indexPattern
           ∧ Some (name field) = timeFieldName indexPattern.

(** [field] is the first field of the index pattern that carries the name
    of its time field. *)
Definition firstTimeField (indexPattern : IIndexPattern) (field : IFieldType) : Prop :=
  Some (name field) = timeFieldName indexPattern
  ∧ ∃ before after,
      fields indexPattern = before ++ field :: after
      ∧ ∀ f, f ∈ before → Some (name f) ≠ timeFieldName indexPattern.

(** The keys [getTime] may put into the params, and the format it
    announces. *)
Definition inclusiveKeys : gset string := {["gte"; "lte"; "format"]}.
Definition strictFormat : string := "strict_date_optional_time".

(** * A small instance of the imports

    Instants, dates and clock readings are milliseconds since the epoch.
    The parser knows [now] and [now/d] only; [toISOString] prints UTC; the
    filter records what [buildRangeFilter] was called with. It serves to
    run the two functions on concrete inputs. *)
Module Stub.

Definition digit (n : Z) : string :=
  String (Ascii.ascii_of_N (48 + Z.to_N (n `mod` 10))) "".

Fixpoint decimal (width : nat) (n : Z) : string :=
  match width with
  | O => ""
  | S w => decimal w (n `div` 10) +:+ digit n
  end.

(** Year, month and day of a day count since 1970-01-01. *)
Definition civil (days : Z) : Z * Z * Z :=
  let z := (days + 719468)%Z in
  let era := (z `div` 146097)%Z in
  let doe := (z - era * 146097)%Z in
  let yoe := ((doe - doe `div` 1460 + doe `div` 36524 - doe `div` 146096) `div` 365)%Z in
  let doy := (doe - (365 * yoe + yoe `div` 4 - yoe `div` 100))%Z in
  let mp := ((5 * doy + 2) `div` 153)%Z in
  let d := (doy - (153 * mp + 2) `div` 5 + 1)%Z in
  let m := (if bool_decide (mp < 10)%Z then mp + 3 else mp - 9)%Z in
  let y := (yoe + era * 400 + (if bool_decide (m ≤ 2)%Z then 1 else 0))%Z in
  (y, m, d).

Definition msPerDay : Z := 86400000.

Definition utcISOString (t : Z) : string :=
  let '(y, m, d) := civil (t `div` msPerDay) in
  let ms := (t `mod` msPerDay)%Z in
  decimal 4 y +:+ "-" +:+ decimal 2 m +:+ "-" +:+ decimal 2 d +:+ "T"
  +:+ decimal 2 (ms `div` 3600000) +:+ ":"
  +:+ decimal 2 ((ms `div` 60000) `mod` 60) +:+ ":"
  +:+ decimal 2 ((ms `div` 1000) `mod` 60) +:+ "."
  +:+ decimal 3 (ms `mod` 1000) +:+ "Z".

Definition parse (clock : Z) (text : string) (options : ParseOptions Z) : option Z :=
  let now := default clock (parseForceNow options) in
  if bool_decide (text = "now") then Some now
  else if bool_decide (text = "now/d") then
    let start := (now `div` msPerDay * msPerDay)%Z in
    Some (if default false (roundUp options) then start + msPerDay - 1 else start)%Z
  else None.

Record Filter := {
  filterField : IFieldType;
  filterParams : gmap string string;
  filterIndex : IIndexPattern;
}.

Definition imports : Imports := {|
  Moment := Z;
  Date := Z;
  Clock := Z;
  RangeFilter := Filter;
  dateMath_parse := parse;
  toISOString := utcISOString;
  buildRangeFilter := Build_Filter;
|}.

(** Inputs to run on. For [dateMath.parse] the empty string and [now/x]
    (there is no unit [x]) yield no instant. *)
Definition timestamp : IFieldType := {| name := "@timestamp"; type := "date" |}.
Definition bytes : IFieldType := {| name := "bytes"; type := "number" |}.

Definition logs : IIndexPattern :=
  {| title := "logs-*"; fields := [bytes; timestamp];
     timeFieldName := Some "@timestamp" |}.

(** An index pattern whose time field is not among its fields. *)
Definition stale : IIndexPattern :=
  {| title := "stale-*"; fields := [bytes]; timeFieldName := Some "@timestamp" |}.

(** 2020-02-29T12:34:56.789Z *)
Definition noon : Z := 1582979696789.

End Stub.

(** * More index patterns to run on *)
Module Inputs.

(** A second field with the time field's name, after the first. *)
Definition nanos : IFieldType := {| name := "@timestamp"; type := "date_nanos" |}.

Definition twice : IIndexPattern :=
  {| title := "twice-*"; fields := [Stub.bytes; Stub.timestamp; nanos];
     timeFieldName := Some "@timestamp" |}.

(** An index pattern that is not time based. *)
Definition untimed : IIndexPattern :=
  {| title := "people"; fields := [Stub.bytes; Stub.timestamp];
     timeFieldName := None |}.

(** An index pattern whose field list is empty. *)
Definition bare : IIndexPattern :=
  {| title := "bare-*"; fields := []; timeFieldName := Some "@timestamp" |}.

End Inputs.

(** * The test data of the transform-creation suite

    The second part of the source file: [testDataList] of
    [creation_index_pattern], with the getter [destinationIndex]. Each
    [transformId] is built from a reading of [Date.now()], an integer
    count of milliseconds, which a template literal prints in decimal. *)
Module CreationIndexPattern.

(** [interface GroupByEntry] *)
Record GroupByEntry := {
  identifier : string;
  label : string;
  intervalLabel : option string;
}.

(** The literals of [aggregationEntries]. *)
Record AggregationEntry := { aggIdentifier : string; aggLabel : string }.

(** Plain JSON, for [expected.pivotAdvancedEditorValue]. *)
#[local] Unset Elimination Schemes.
Inductive Json :=
| JString (s : string)
| JNumber (n : Z)
| JArray (items : list Json)
| JObject (members : list (string * Json)).
#[local] Set Elimination Schemes.

Record PivotPreview := { column : nat; values : list string }.
Record Row := { status : string; mode : string; progress : string }.
Record SourcePreview := { columns : nat; rows : nat }.

Record Expected := {
  pivotAdvancedEditorValue : Json;
  pivotPreview : PivotPreview;
  row : Row;
  sourcePreview : SourcePreview;
}.

Record TestData := {
  suiteTitle : string;
  source : string;
  groupByEntries : list GroupByEntry;
  aggregationEntries : list AggregationEntry;
  transformId : string;
  transformDescription : string;
  expected : Expected;
}.

(** [get destinationIndex(): string { return `user-${this.transformId}`; }] *)
Definition destinationIndex (this : TestData) : string :=
  "user-" +:+ transformId this.

(** The first element of [testDataList], with the reading of [Date.now()]
    its [transformId] is built from. *)
Definition termsAndDateHistogram (now : N) : TestData := {|
  suiteTitle := "batch transform with terms+date_histogram groups and avg agg";
  source := "ft_ecommerce";
  groupByEntries := [
    {| identifier := "terms(category.keyword)"; label := "category.keyword";
       intervalLabel := None |};
    {| identifier := "date_histogram(order_date)"; label := "order_date";
       intervalLabel := Some "1m" |}
  ];
  aggregationEntries := [
    {| aggIdentifier := "avg(products.base_price)";
       aggLabel := "products.base_price.avg" |}
  ];
  transformId := "ec_1_" +:+ pretty now;
  transformDescription :=
    "ecommerce batch transform with groups terms(category.keyword) + date_histogram(order_date) 1m and aggregation avg(products.base_price)";
  expected := {|
    pivotAdvancedEditorValue := JObject [
      ("group_by", JObject [
         ("category.keyword",
          JObject [("terms", JObject [("field", JString "category.keyword")])]);
         ("order_date",
          JObject [("date_histogram",
                    JObject [("field", JString "order_date");
                             ("calendar_interval", JString "1m")])])
       ]);
      ("aggregations", JObject [
         ("products.base_price.avg",
          JObject [("avg", JObject [("field", JString "products.base_price")])])
       ])
    ];
    pivotPreview := {| column := 0; values := ["Men's Accessories"] |};
    row := {| status := "stopped"; mode := "batch"; progress := "100" |};
    sourcePreview := {| columns := 20; rows := 5 |};
  |};
|}.

(** The second element of [testDataList]. *)
Definition termsAndPercentiles (now : N) : TestData := {|
  suiteTitle := "batch transform with terms group and percentiles agg";
  source := "ft_ecommerce";
  groupByEntries := [
    {| identifier := "terms(geoip.country_iso_code)";
       label := "geoip.country_iso_code"; intervalLabel := None |}
  ];
  aggregationEntries := [
    {| aggIdentifier := "percentiles(products.base_price)";
       aggLabel := "products.base_price.percentiles" |}
  ];
  transformId := "ec_2_" +:+ pretty now;
  transformDescription :=
    "ecommerce batch transform with group by terms(geoip.country_iso_code) and aggregation percentiles(products.base_price)";
  expected := {|
    pivotAdvancedEditorValue := JObject [
      ("group_by", JObject [
         ("geoip.country_iso_code",
          JObject [("terms", JObject [("field", JString "geoip.country_iso_code")])])
       ]);
      ("aggregations", JObject [
         ("products.base_price.percentiles",
          JObject [("percentiles",
                    JObject [("field", JString "products.base_price");
                             ("percents",
                              JArray [JNumber 1; JNumber 5; JNumber 25; JNumber 50;
                                      JNumber 75; JNumber 95; JNumber 99])])])
       ])
    ];
    pivotPreview := {| column := 0; values := ["AE"; "CO"; "EG"; "FR"; "GB"] |};
    row := {| status := "stopped"; mode := "batch"; progress := "100" |};
    sourcePreview := {| columns := 20; rows := 5 |};
  |};
|}.

(** [testDataList]; the two template literals read the clock one after the
    other. *)
Definition testDataList (now1 now2 : N) : list TestData :=
  [termsAndDateHistogram now1; termsAndPercentiles now2].

End CreationIndexPattern.

(** * Properties *)

Section Properties.
Context {deps : Imports}.
Implicit Types (clock : Clock) (timeRange : TimeRange) (bounds : Bounds)
  (indexPattern : IIndexPattern) (forceNow : option Date).

(** ** The params object *)

Lemma rangeParams_unfold bounds :
  rangeParams bounds
  = <["format" := strictFormat]>
      (from_option (λ m, {["lte" := toISOString m]}) ∅ (max bounds)
       ∪ from_option (λ m, {["gte" := toISOString m]}) ∅ (min bounds)).
Proof.
  unfold rangeParams, js_and, spread, strictFormat.
  destruct (max bounds), (min bounds); reflexivity.
Qed.

Lemma rangeParams_format bounds :
  rangeParams bounds !! "format" = Some strictFormat.
Proof. rewrite rangeParams_unfold. apply lookup_insert_eq. Qed.

Lemma rangeParams_gte bounds :
  rangeParams bounds !! "gte" = toISOString <$> min bounds.
Proof.
  rewrite rangeParams_unfold.
  destruct (max bounds), (min bounds); reflexivity.
Qed.

Lemma rangeParams_lte bounds :
  rangeParams bounds !! "lte" = toISOString <$> max bounds.
Proof.
  rewrite rangeParams_unfold.
  destruct (max bounds), (min bounds); reflexivity.
Qed.

Lemma rangeParams_dom bounds : dom (rangeParams bounds) ⊆ inclusiveKeys.
Proof.
  rewrite rangeParams_unfold. unfold inclusiveKeys.
  destruct (max bounds), (min bounds); simpl;
    rewrite dom_insert_L, dom_union_L, ?dom_singleton_L, ?dom_empty_L;
    intros k; rewrite !elem_of_union, !elem_of_singleton, ?elem_of_empty;
    tauto.
Qed.

Lemma rangeParams_neither bounds :
  min bounds = None → max bounds = None →
  rangeParams bounds = {["format" := strictFormat]}.
Proof.
  intros Hmin Hmax. rewrite rangeParams_unfold, Hmin, Hmax. simpl.
  by rewrite (left_id_L ∅ (∪)), insert_empty.
Qed.

(** ** Looking up the time field *)

Lemma isTimeField_true indexPattern field :
  isTimeField indexPattern field = true
  ↔ Some (name field) = timeFieldName indexPattern.
Proof. unfold isTimeField. apply bool_decide_eq_true. Qed.

Lemma find_timefield_first indexPattern field :
  find (isTimeField indexPattern) (fields indexPattern) = Some field →
  firstTimeField indexPattern field.
Proof.
  unfold firstTimeField. generalize (fields indexPattern) as l.
  induction l as [|f l IH]; simpl; [done|].
  destruct (isTimeField indexPattern f) eqn:Hf.
  - intros [= ->]. split; [by apply isTimeField_true|].
    exists [], l. split; [done|]. intros g Hg. by apply elem_of_nil in Hg.
  - intros Hfind. destruct (IH Hfind) as (Hname & before & after & -> & Hbefore).
    split; [done|]. exists (f :: before), after. split; [done|].
    intros g [->|Hg]%elem_of_cons; [|by apply Hbefore].
    intros Hg. apply isTimeField_true in Hg. congruence.
Qed.

Lemma find_timefield_None indexPattern :
  find (isTimeField indexPattern) (fields indexPattern) = None
  ↔ ¬ hasTimeField indexPattern.
Proof.
  unfold hasTimeField. split.
  - intros Hfind (f & Hin & Hf).
    apply list_elem_of_In in Hin.
    pose proof (find_none _ _ Hfind f Hin) as Hnone.
    apply isTimeField_true in Hf. congruence.
  - intros Hno. destruct (find _ _) as [f|] eqn:Hfind; [|done].
    destruct Hno. apply find_some in Hfind as [Hin Hf].
    exists f. split; [by apply list_elem_of_In | by apply isTimeField_true].
Qed.

Lemma find_timefield_Some indexPattern :
  hasTimeField indexPattern →
  ∃ field, find (isTimeField indexPattern) (fields indexPattern) = Some field.
Proof.
  intros Hhas. destruct (find _ _) as [f|] eqn:Hfind; [by exists f|].
  by apply find_timefield_None in Hfind.
Qed.

(** ** The shape of what [getTime] returns *)

Lemma getTime_found clock indexPattern timeRange forceNow field :
  find (isTimeField indexPattern) (fields indexPattern) = Some field →
  getTime clock (Some indexPattern) timeRange forceNow
  = Some (buildRangeFilter field
            (rangeParams (calculateBounds clock timeRange
                            (Some {| forceNow := forceNow |})))
            indexPattern).
Proof. intros Hfind. unfold getTime, getTime_return. by rewrite Hfind. Qed.

Lemma getTime_Some_inv clock (target : option IIndexPattern) timeRange forceNow filter :
  getTime clock target timeRange forceNow = Some filter →
  ∃ indexPattern field,
    target = Some indexPattern
    ∧ find (isTimeField indexPattern) (fields indexPattern) = Some field
    ∧ filter = buildRangeFilter field
                 (rangeParams (calculateBounds clock timeRange
                                 (Some {| forceNow := forceNow |})))
                 indexPattern.
Proof.
  unfold getTime, getTime_return.
  destruct target as [indexPattern|]; [|done].
  destruct (find _ _) as [field|] eqn:Hfind; [|done].
  simpl. intros [= <-]. by exists indexPattern, field.
Qed.

End Properties.

(** * The claims of the specification *)

Section Claims.
Context {deps : Imports}.
Implicit Types (clock : Clock) (timeRange : TimeRange) (bounds : Bounds)
  (indexPattern : IIndexPattern) (forceNow : option Date).

(** C1, as the code has it: when [dateMath.parse] yields no instant for
    [from] nor for [to] and the index pattern contains its time field,
    [getTime] does not return [undefined]; it returns the range filter over
    the first field carrying the time field's name, and the params of that
    filter hold the single key [format: 'strict_date_optional_time'], with
    neither [gte] nor [lte]. *)
Theorem getTime_unparseable_filter clock indexPattern timeRange forceNow :
  dateMath_parse clock (from timeRange)
    {| roundUp := None; parseForceNow := forceNow |} = None →
  dateMath_parse clock (to timeRange)
    {| roundUp := Some true; parseForceNow := forceNow |} = None →
  hasTimeField indexPattern →
  ∃ field,
    firstTimeField indexPattern field
    ∧ getTime clock (Some indexPattern) timeRange forceNow
      = Some (buildRangeFilter field {["format" := strictFormat]} indexPattern).
Proof.
  intros Hfrom Hto [field Hfind]%find_timefield_Some.
  exists field. split; [by apply find_timefield_first|].
  rewrite (getTime_found _ _ _ _ _ Hfind).
  by rewrite rangeParams_neither.
Qed.

(** C2: for every time range, clock reading and optional [forceNow],
    [getTime] returns [undefined] when the index pattern is [undefined],
    and likewise when no field of the index pattern has the name
    [timeFieldName]. *)
Theorem getTime_no_target_undefined clock (target : option IIndexPattern)
    timeRange forceNow :
  target = None
  ∨ (∃ indexPattern, target = Some indexPattern ∧ ¬ hasTimeField indexPattern) →
  getTime clock target timeRange forceNow = None.
Proof.
  intros [->|(indexPattern & -> & Hno)]; [done|].
  apply find_timefield_None in Hno.
  unfold getTime, getTime_return. by rewrite Hno.
Qed.

(** C3: [calculateBounds] returns the pair whose [min] is [from] parsed
    with no [roundUp] requested and whose [max] is [to] parsed with
    [roundUp: true]; both parses receive the [forceNow] of the options,
    which is absent when the options are left out. *)
Theorem calculateBounds_parses clock timeRange
    (options : option (CalculateBoundsOptions Date)) :
  calculateBounds clock timeRange options
  = {| min := dateMath_parse clock (from timeRange)
                {| roundUp := None; parseForceNow := options ≫= forceNow |};
       max := dateMath_parse clock (to timeRange)
                {| roundUp := Some true; parseForceNow := options ≫= forceNow |} |}.
Proof. by destruct options as [[?]|]. Qed.

(** C4: every filter [getTime] returns is [buildRangeFilter] applied to the
    time field, the index pattern and a params object in which the lower
    bound, when there is one, sits under [gte] and the upper bound under
    [lte], each as its [toISOString] rendering, in which [format] is
    ['strict_date_optional_time'], and which has no other key (so no
    exclusive [gt] or [lt]). *)
Theorem getTime_filter_inclusive clock (target : option IIndexPattern)
    timeRange forceNow filter :
  getTime clock target timeRange forceNow = Some filter →
  ∃ indexPattern field params,
    target = Some indexPattern
    ∧ Some (name field) = timeFieldName indexPattern
    ∧ filter = buildRangeFilter field params indexPattern
    ∧ params !! "gte"
      = toISOString <$> min (calculateBounds clock timeRange
                               (Some {| forceNow := forceNow |}))
    ∧ params !! "lte"
      = toISOString <$> max (calculateBounds clock timeRange
                               (Some {| forceNow := forceNow |}))
    ∧ params !! "format" = Some "strict_date_optional_time"
    ∧ dom params ⊆ inclusiveKeys.
Proof.
  intros (indexPattern & field & -> & Hfind & ->)%getTime_Some_inv.
  exists indexPattern, field. eexists. split; [done|].
  split; [by apply find_timefield_first in Hfind as [? _]|].
  split; [done|].
  auto using rangeParams_gte, rangeParams_lte, rangeParams_format, rangeParams_dom.
Qed.

(** C5: whenever [getTime] returns a filter, the index pattern is defined,
    one of its fields has the name [timeFieldName], and the filter is built
    over that field: the first one of that name in [fields]. *)
Theorem getTime_filter_only_if_timefield clock (target : option IIndexPattern)
    timeRange forceNow filter :
  getTime clock target timeRange forceNow = Some filter →
  ∃ indexPattern field,
    target = Some indexPattern
    ∧ field ∈ fields indexPattern
    ∧ firstTimeField indexPattern field
    ∧ ∃ params, filter = buildRangeFilter field params indexPattern.
Proof.
  intros (indexPattern & field & -> & Hfind & ->)%getTime_Some_inv.
  exists indexPattern, field. split; [done|].
  split; [by apply list_elem_of_In, (find_some _ _ Hfind)|].
  split; [by apply find_timefield_first|]. by eexists.
Qed.

(** C7: [calculateBounds] returns an object for every time range, an object
    is truthy, and so [getTime] never leaves through the [return] guarded
    by [!bounds]: when it returns [undefined], it is for want of an index
    pattern or of the time field. *)
Theorem getTime_bounds_guard_dead clock timeRange :
  (∀ options, toBoolean (calculateBounds clock timeRange options) = true)
  ∧ ∀ (target : option IIndexPattern) forceNow,
      getTime_return clock target timeRange forceNow ≠ ReturnNoBounds
      ∧ (getTime clock target timeRange forceNow = None
         ↔ getTime_return clock target timeRange forceNow = ReturnNoIndexPattern
           ∨ getTime_return clock target timeRange forceNow = ReturnNoTimefield).
Proof.
  split; [done|]. intros target forceNow.
  unfold getTime, getTime_return.
  destruct target as [indexPattern|]; [|by intuition].
  destruct (find _ _); simpl; [|by intuition].
  split; [done|]. split; [done|]. by intros [|].
Qed.

(** C8: once the index pattern is defined and contains its time field,
    [getTime] returns a filter, whatever the two parses yield; a bound that
    does not parse leaves its key ([gte] for [from], [lte] for [to]) out of
    the params, and the params contain [format:
    'strict_date_optional_time'] in every case. *)
Theorem getTime_always_filter clock indexPattern timeRange forceNow :
  hasTimeField indexPattern →
  ∃ field params,
    getTime clock (Some indexPattern) timeRange forceNow
    = Some (buildRangeFilter field params indexPattern)
    ∧ params !! "format" = Some "strict_date_optional_time"
    ∧ (dateMath_parse clock (from timeRange)
         {| roundUp := None; parseForceNow := forceNow |} = None →
       params !! "gte" = None)
    ∧ (dateMath_parse clock (to timeRange)
         {| roundUp := Some true; parseForceNow := forceNow |} = None →
       params !! "lte" = None).
Proof.
  intros [field Hfind]%find_timefield_Some.
  exists field. eexists. split; [by apply getTime_found|].
  split; [apply rangeParams_format|].
  split; intros Hnone.
  - rewrite rangeParams_gte. simpl. by rewrite Hnone.
  - rewrite rangeParams_lte. simpl. by rewrite Hnone.
Qed.

(** C9: with the time field found, a [from] that parses next to a [to] that
    does not gives params with [gte] (the rendering of the parsed instant)
    and without [lte]; a [to] that parses next to a [from] that does not
    gives params with [lte] and without [gte]. *)
Theorem getTime_one_sided clock indexPattern timeRange forceNow :
  hasTimeField indexPattern →
  ∃ field params,
    getTime clock (Some indexPattern) timeRange forceNow
    = Some (buildRangeFilter field params indexPattern)
    ∧ ∀ m,
        (dateMath_parse clock (from timeRange)
           {| roundUp := None; parseForceNow := forceNow |} = Some m →
         dateMath_parse clock (to timeRange)
           {| roundUp := Some true; parseForceNow := forceNow |} = None →
         params !! "gte" = Some (toISOString m) ∧ params !! "lte" = None)
        ∧ (dateMath_parse clock (from timeRange)
             {| roundUp := None; parseForceNow := forceNow |} = None →
           dateMath_parse clock (to timeRange)
             {| roundUp := Some true; parseForceNow := forceNow |} = Some m →
           params !! "lte" = Some (toISOString m) ∧ params !! "gte" = None).
Proof.
  intros [field Hfind]%find_timefield_Some.
  exists field. eexists. split; [by apply getTime_found|].
  intros m. rewrite rangeParams_gte, rangeParams_lte. simpl.
  split; intros -> ->; done.
Qed.

End Claims.

(** * The claims on concrete inputs *)

Section Concrete.
#[local] Existing Instance Stub.imports.

Lemma logs_hasTimeField : hasTimeField Stub.logs.
Proof.
  exists Stub.timestamp. split; [|reflexivity].
  apply list_elem_of_further, list_elem_of_here.
Defined.

Lemma stale_lacks_timeField : ¬ hasTimeField Stub.stale.
Proof.
  intros (f & Hin & Hf). apply list_elem_of_singleton in Hin.
  subst f. discriminate Hf.
Defined.

(** C1 as the specification words it fails: neither bound parses, the
    index pattern contains its time field, and [getTime] returns a filter,
    not [undefined]. *)
Lemma getTime_unparseable_counterexample :
  let timeRange := {| from := ""; to := "now/x" |} in
  dateMath_parse 0%Z (from timeRange)
    {| roundUp := None; parseForceNow := None |} = None
  ∧ dateMath_parse 0%Z (to timeRange)
      {| roundUp := Some true; parseForceNow := None |} = None
  ∧ hasTimeField Stub.logs
  ∧ getTime 0%Z (Some Stub.logs) timeRange None ≠ None.
Proof.
  split; [reflexivity|]. split; [reflexivity|].
  split; [exact logs_hasTimeField|]. discriminate.
Qed.

Lemma getTime_unparseable_filter_witness :
  ∃ field,
    firstTimeField Stub.logs field
    ∧ getTime 0%Z (Some Stub.logs) {| from := ""; to := "now/x" |} None
      = Some (buildRangeFilter field {["format" := strictFormat]} Stub.logs).
Proof.
  apply (getTime_unparseable_filter (deps := Stub.imports));
    [reflexivity | reflexivity | exact logs_hasTimeField].
Defined.

Lemma getTime_no_target_undefined_witness :
  getTime 0%Z None {| from := "now/d"; to := "now" |} None = None
  ∧ getTime 0%Z (Some Stub.stale) {| from := "now/d"; to := "now" |}
      (Some Stub.noon) = None.
Proof.
  split; apply (getTime_no_target_undefined (deps := Stub.imports)).
  - left. reflexivity.
  - right. exists Stub.stale. split; [reflexivity | exact stale_lacks_timeField].
Defined.

Lemma getTime_filter_inclusive_witness :
  ∃ indexPattern field params,
    Some Stub.logs = Some indexPattern
    ∧ Some (name field) = timeFieldName indexPattern
    ∧ Stub.Build_Filter Stub.timestamp
        {["gte" := "2020-02-29T00:00:00.000Z";
          "lte" := "2020-02-29T23:59:59.999Z";
          "format" := "strict_date_optional_time"]}
        Stub.logs
      = buildRangeFilter field params indexPattern
    ∧ params !! "gte" = Some "2020-02-29T00:00:00.000Z"
    ∧ params !! "lte" = Some "2020-02-29T23:59:59.999Z"
    ∧ params !! "format" = Some "strict_date_optional_time"
    ∧ dom params ⊆ inclusiveKeys.
Proof.
  apply (getTime_filter_inclusive (deps := Stub.imports) 0%Z (Some Stub.logs)
           {| from := "now/d"; to := "now/d" |} (Some Stub.noon)).
  reflexivity.
Defined.

Lemma getTime_filter_only_if_timefield_witness :
  ∃ indexPattern field,
    Some Stub.logs = Some indexPattern
    ∧ field ∈ fields indexPattern
    ∧ firstTimeField indexPattern field
    ∧ ∃ params,
        Stub.Build_Filter Stub.timestamp
          {["gte" := "2020-02-29T12:34:56.789Z";
            "format" := "strict_date_optional_time"]}
          Stub.logs
        = buildRangeFilter field params indexPattern.
Proof.
  apply (getTime_filter_only_if_timefield (deps := Stub.imports) 0%Z
           (Some Stub.logs) {| from := "now"; to := "" |} (Some Stub.noon)).
  reflexivity.
Defined.

Lemma getTime_always_filter_witness :
  ∃ field params,
    getTime 0%Z (Some Stub.logs) {| from := ""; to := "now/x" |} None
    = Some (buildRangeFilter field params Stub.logs)
    ∧ params !! "format" = Some "strict_date_optional_time"
    ∧ params !! "gte" = None
    ∧ params !! "lte" = None.
Proof.
  destruct (getTime_always_filter (deps := Stub.imports) 0%Z Stub.logs
              {| from := ""; to := "now/x" |} None logs_hasTimeField)
    as (field & params & Hget & Hformat & Hgte & Hlte).
  exists field, params. split; [exact Hget|]. split; [exact Hformat|].
  split; [apply Hgte | apply Hlte]; reflexivity.
Defined.

Lemma getTime_one_sided_witness :
  (∃ field params,
     getTime 0%Z (Some Stub.logs) {| from := "now"; to := "now/x" |} (Some Stub.noon)
     = Some (buildRangeFilter field params Stub.logs)
     ∧ params !! "gte" = Some "2020-02-29T12:34:56.789Z"
     ∧ params !! "lte" = None)
  ∧ (∃ field params,
       getTime 0%Z (Some Stub.logs) {| from := ""; to := "now/d" |} (Some Stub.noon)
       = Some (buildRangeFilter field params Stub.logs)
       ∧ params !! "lte" = Some "2020-02-29T23:59:59.999Z"
       ∧ params !! "gte" = None).
Proof.
  split.
  - destruct (getTime_one_sided (deps := Stub.imports) 0%Z Stub.logs
                {| from := "now"; to := "now/x" |} (Some Stub.noon)
                logs_hasTimeField)
      as (field & params & Hget & Hside).
    exists field, params. split; [exact Hget|].
    apply (Hside Stub.noon); reflexivity.
  - destruct (getTime_one_sided (deps := Stub.imports) 0%Z Stub.logs
                {| from := ""; to := "now/d" |} (Some Stub.noon)
                logs_hasTimeField)
      as (field & params & Hget & Hside).
    exists field, params. split; [exact Hget|].
    apply (Hside 1583020799999%Z); reflexivity.
Defined.

End Concrete.

(** * Further properties of [getTime] *)

Section Further.
Context {deps : Imports}.
Implicit Types (clock : Clock) (timeRange : TimeRange) (bounds : Bounds)
  (indexPattern : IIndexPattern) (forceNow : option Date).

Lemma firstTimeField_find indexPattern field :
  firstTimeField indexPattern field →
  find (isTimeField indexPattern) (fields indexPattern) = Some field.
Proof.
  intros (Hname & before & after & -> & Hbefore).
  induction before as [|f before IH]; simpl.
  - by rewrite (proj2 (isTimeField_true indexPattern field) Hname).
  - destruct (isTimeField indexPattern f) eqn:Hf.
    + apply isTimeField_true in Hf. destruct (Hbefore f); [left|done].
    + apply IH. intros g Hg. apply Hbefore. by right.
Qed.

(** Whether [getTime] returns a filter is decided by the index pattern
    alone: it does exactly when the index pattern is defined and contains
    its time field, so two calls on the same index pattern both return a
    filter or both return [undefined], whatever the time ranges, the clock
    readings and the [forceNow] values. *)
Theorem getTime_filter_iff clock1 clock2 (target : option IIndexPattern)
    timeRange1 timeRange2 forceNow1 forceNow2 :
  (is_Some (getTime clock1 target timeRange1 forceNow1)
   ↔ ∃ indexPattern, target = Some indexPattern ∧ hasTimeField indexPattern)
  ∧ (is_Some (getTime clock1 target timeRange1 forceNow1)
     ↔ is_Some (getTime clock2 target timeRange2 forceNow2)).
Proof.
  assert (∀ clock timeRange forceNow,
            is_Some (getTime clock target timeRange forceNow)
            ↔ ∃ indexPattern, target = Some indexPattern ∧ hasTimeField indexPattern)
    as Hiff.
  { intros clock timeRange forceNow. split.
    - intros [filter (indexPattern & field & -> & Hfind & _)%getTime_Some_inv].
      exists indexPattern. split; [done|].
      destruct (find_timefield_first _ _ Hfind) as [Hname _].
      exists field. split; [|done].
      by apply list_elem_of_In, (find_some _ _ Hfind).
    - intros (indexPattern & -> & [field Hfind]%find_timefield_Some).
      rewrite (getTime_found _ _ _ _ _ Hfind). by eexists. }
  split; [apply Hiff|]. by rewrite !Hiff.
Qed.

(** An index pattern that is not time based ([timeFieldName] undefined), or
    that has no fields at all, gets no filter. *)
Theorem getTime_not_time_based clock indexPattern timeRange forceNow :
  timeFieldName indexPattern = None ∨ fields indexPattern = [] →
  getTime clock (Some indexPattern) timeRange forceNow = None.
Proof.
  intros Hcase. unfold getTime, getTime_return.
  replace (find (isTimeField indexPattern) (fields indexPattern)) with (@None IFieldType);
    [done|].
  symmetry. destruct Hcase as [Hnone| ->]; [|done].
  apply find_timefield_None. intros (f & _ & Hf). congruence.
Qed.

(** When several fields carry the time field's name, the filter is built
    over the first of them: the first such field is unique, and [getTime]
    hands exactly it to [buildRangeFilter], together with the whole index
    pattern. *)
Theorem getTime_first_of_duplicates clock indexPattern timeRange forceNow field :
  firstTimeField indexPattern field →
  (∀ other, firstTimeField indexPattern other → other = field)
  ∧ ∃ params,
      getTime clock (Some indexPattern) timeRange forceNow
      = Some (buildRangeFilter field params indexPattern).
Proof.
  intros Hfind%firstTimeField_find. split.
  - intros other Hother%firstTimeField_find. congruence.
  - eexists. by apply getTime_found.
Qed.

(** [getTime] uses the time range, the clock and [forceNow] only through
    [calculateBounds(timeRange, { forceNow })]: two calls on the same index
    pattern whose bounds agree return the same thing. *)
Theorem getTime_factors_through_bounds clock1 clock2 (target : option IIndexPattern)
    timeRange1 timeRange2 forceNow1 forceNow2 :
  calculateBounds clock1 timeRange1 (Some {| forceNow := forceNow1 |})
  = calculateBounds clock2 timeRange2 (Some {| forceNow := forceNow2 |}) →
  getTime clock1 target timeRange1 forceNow1
  = getTime clock2 target timeRange2 forceNow2.
Proof.
  intros Hbounds. unfold getTime, getTime_return.
  destruct target as [indexPattern|]; [|done].
  destruct (find _ _); [|done]. by rewrite Hbounds.
Qed.

(** The two sides of the filter do not influence each other: for two time
    ranges queried on the same index pattern at the same clock reading and
    [forceNow], equal [from] expressions give the same [gte] entry (present
    or absent) whatever the [to] expressions are, equal [to] expressions
    give the same [lte] entry whatever the [from] expressions are, and the
    filters are over the same field. *)
Theorem getTime_sides_independent clock indexPattern timeRange1 timeRange2 forceNow :
  hasTimeField indexPattern →
  ∃ field params1 params2,
    getTime clock (Some indexPattern) timeRange1 forceNow
    = Some (buildRangeFilter field params1 indexPattern)
    ∧ getTime clock (Some indexPattern) timeRange2 forceNow
      = Some (buildRangeFilter field params2 indexPattern)
    ∧ (from timeRange1 = from timeRange2 → params1 !! "gte" = params2 !! "gte")
    ∧ (to timeRange1 = to timeRange2 → params1 !! "lte" = params2 !! "lte").
Proof.
  intros [field Hfind]%find_timefield_Some.
  exists field. do 2 eexists.
  split; [by apply getTime_found|]. split; [by apply getTime_found|].
  rewrite !rangeParams_gte, !rangeParams_lte. simpl.
  split; by intros ->.
Qed.

(** The usual case in full: when both expressions parse and the index
    pattern contains its time field, [getTime] returns [buildRangeFilter]
    of the first time field, of the index pattern, and of the params with
    exactly the three keys [gte], [lte] and [format], the bounds rendered
    by [toISOString] in that order ([from] under [gte], [to] under
    [lte]). *)
Theorem getTime_both_sides clock indexPattern timeRange forceNow field lower upper :
  firstTimeField indexPattern field →
  dateMath_parse clock (from timeRange)
    {| roundUp := None; parseForceNow := forceNow |} = Some lower →
  dateMath_parse clock (to timeRange)
    {| roundUp := Some true; parseForceNow := forceNow |} = Some upper →
  getTime clock (Some indexPattern) timeRange forceNow
  = Some (buildRangeFilter field
            {["gte" := toISOString lower; "lte" := toISOString upper;
              "format" := "strict_date_optional_time"]}
            indexPattern).
Proof.
  intros Hfind%firstTimeField_find Hlower Hupper.
  rewrite (getTime_found _ _ _ _ _ Hfind). do 2 f_equal.
  rewrite rangeParams_unfold. simpl. rewrite Hlower, Hupper. simpl.
  apply map_eq. intros key.
  destruct (decide (key = "format")) as [->|]; [done|].
  destruct (decide (key = "lte")) as [->|]; [done|].
  destruct (decide (key = "gte")) as [->|]; [done|].
  by rewrite !lookup_insert_ne, lookup_union, !lookup_singleton_ne by done.
Qed.

End Further.

(** * The identifiers of the transform-creation test data *)

Lemma destinationIndex_inj (a b : CreationIndexPattern.TestData) :
  CreationIndexPattern.destinationIndex a = CreationIndexPattern.destinationIndex b →
  CreationIndexPattern.transformId a = CreationIndexPattern.transformId b.
Proof. unfold CreationIndexPattern.destinationIndex. simpl. by intros [= ?]. Qed.

(** Two entries of [testDataList], taken from the same or from two
    evaluations of the list, that have the same [destinationIndex] sit at
    the same position and were built from the same reading of
    [Date.now()]; they are then the same test data. So the two suites
    never share a transform id or a destination index, and neither do two
    evaluations of the list at different milliseconds. *)
Theorem destinationIndex_unique (now1 now2 later1 later2 : N) (i j : nat)
    (a b : CreationIndexPattern.TestData) :
  CreationIndexPattern.testDataList now1 now2 !! i = Some a →
  CreationIndexPattern.testDataList later1 later2 !! j = Some b →
  CreationIndexPattern.destinationIndex a = CreationIndexPattern.destinationIndex b →
  i = j ∧ [now1; now2] !! i = [later1; later2] !! j ∧ a = b.
Proof.
  intros Ha Hb Heq%destinationIndex_inj.
  (* [simplify_eq] compares the literal prefixes and, through the
     injectivity of [pretty], identifies the clock readings *)
  destruct i as [|[|i]], j as [|[|j]]; simplify_eq/=; done.
Qed.

(** * The further properties on concrete inputs *)

Section FurtherConcrete.
#[local] Existing Instance Stub.imports.

Lemma twice_firstTimeField : firstTimeField Inputs.twice Stub.timestamp.
Proof.
  split; [reflexivity|]. exists [Stub.bytes], [Inputs.nanos].
  split; [reflexivity|]. intros f Hf. apply list_elem_of_singleton in Hf.
  subst f. discriminate.
Defined.

Lemma getTime_filter_iff_witness :
  is_Some (getTime 0%Z (Some Stub.logs) {| from := "now"; to := "now" |} None)
  ∧ is_Some (getTime Stub.noon (Some Stub.logs) {| from := ""; to := "now/x" |}
               (Some 0%Z)).
Proof.
  assert (is_Some (getTime 0%Z (Some Stub.logs) {| from := "now"; to := "now" |} None))
    as Hsome.
  { apply (proj1 (getTime_filter_iff (deps := Stub.imports) 0%Z 0%Z
                      (Some Stub.logs) {| from := "now"; to := "now" |}
                      {| from := "now"; to := "now" |} None None)).
    exists Stub.logs. split; [reflexivity | exact logs_hasTimeField]. }
  split; [exact Hsome|].
  apply (proj2 (getTime_filter_iff (deps := Stub.imports) 0%Z Stub.noon
                    (Some Stub.logs) {| from := "now"; to := "now" |}
                    {| from := ""; to := "now/x" |} None (Some 0%Z))).
  exact Hsome.
Defined.

Lemma getTime_not_time_based_witness :
  getTime 0%Z (Some Inputs.untimed) {| from := "now/d"; to := "now" |} None = None
  ∧ getTime 0%Z (Some Inputs.bare) {| from := "now/d"; to := "now" |} None = None.
Proof.
  split; apply (getTime_not_time_based (deps := Stub.imports)).
  - left. reflexivity.
  - right. reflexivity.
Defined.

Lemma getTime_first_of_duplicates_witness :
  (∀ other, firstTimeField Inputs.twice other → other = Stub.timestamp)
  ∧ ∃ params,
      getTime 0%Z (Some Inputs.twice) {| from := "now/d"; to := "now" |}
        (Some Stub.noon)
      = Some (buildRangeFilter Stub.timestamp params Inputs.twice).
Proof.
  apply (getTime_first_of_duplicates (deps := Stub.imports)).
  exact twice_firstTimeField.
Defined.

(** Running at noon, and running at midnight with noon forced as [now],
    give the same filter. *)
Lemma getTime_factors_through_bounds_witness :
  getTime 0%Z (Some Stub.logs) {| from := "now/d"; to := "now" |} (Some Stub.noon)
  = getTime Stub.noon (Some Stub.logs) {| from := "now/d"; to := "now" |} None.
Proof.
  apply (getTime_factors_through_bounds (deps := Stub.imports)). reflexivity.
Defined.

Lemma getTime_sides_independent_witness :
  ∃ field params1 params2,
    getTime 0%Z (Some Stub.logs) {| from := "now/d"; to := "now" |} (Some Stub.noon)
    = Some (buildRangeFilter field params1 Stub.logs)
    ∧ getTime 0%Z (Some Stub.logs) {| from := "now/d"; to := "now/x" |}
        (Some Stub.noon)
      = Some (buildRangeFilter field params2 Stub.logs)
    ∧ params1 !! "gte" = params2 !! "gte".
Proof.
  destruct (getTime_sides_independent (deps := Stub.imports) 0%Z Stub.logs
              {| from := "now/d"; to := "now" |}
              {| from := "now/d"; to := "now/x" |} (Some Stub.noon)
              logs_hasTimeField)
    as (field & params1 & params2 & Hget1 & Hget2 & Hgte & _).
  exists field, params1, params2.
  split; [exact Hget1|]. split; [exact Hget2|]. apply Hgte. reflexivity.
Defined.

Lemma getTime_both_sides_witness :
  getTime 0%Z (Some Inputs.twice) {| from := "now/d"; to := "now/d" |}
    (Some Stub.noon)
  = Some (Stub.Build_Filter Stub.timestamp
            {["gte" := "2020-02-29T00:00:00.000Z";
              "lte" := "2020-02-29T23:59:59.999Z";
              "format" := "strict_date_optional_time"]}
            Inputs.twice).
Proof.
  apply (getTime_both_sides (deps := Stub.imports) 0%Z Inputs.twice
           {| from := "now/d"; to := "now/d" |} (Some Stub.noon) Stub.timestamp
           1582934400000%Z 1583020799999%Z);
    [exact twice_firstTimeField | reflexivity | reflexivity].
Defined.

(** The same entry read twice; the first suite at two successive
    milliseconds; the two suites at the same millisecond. *)
Lemma destinationIndex_unique_witness :
  (1 = 1
   ∧ [1582979696789; 1582979696790]%N !! 1 = [1582979696795; 1582979696790]%N !! 1
   ∧ CreationIndexPattern.termsAndPercentiles 1582979696790
     = CreationIndexPattern.termsAndPercentiles 1582979696790)
  ∧ CreationIndexPattern.destinationIndex
      (CreationIndexPattern.termsAndDateHistogram 1582979696789)
    ≠ CreationIndexPattern.destinationIndex
        (CreationIndexPattern.termsAndDateHistogram 1582979696790)
  ∧ CreationIndexPattern.destinationIndex
      (CreationIndexPattern.termsAndDateHistogram 1582979696789)
    ≠ CreationIndexPattern.destinationIndex
        (CreationIndexPattern.termsAndPercentiles 1582979696789).
Proof.
  split; [|split].
  - apply (destinationIndex_unique 1582979696789 1582979696790
             1582979696795 1582979696790 1 1); reflexivity.
  - intros Heq.
    destruct (destinationIndex_unique 1582979696789 0 1582979696790 0 0 0
                _ _ eq_refl eq_refl Heq) as (_ & Hnow & _).
    discriminate Hnow.
  - intros Heq.
    destruct (destinationIndex_unique 1582979696789 0 0 1582979696789 0 1
                _ _ eq_refl eq_refl Heq) as (Hpos & _).
    discriminate Hpos.
Defined.

End FurtherConcrete.
